(** * The default [main] of the RTOS and its thread trampoline

    A model of [src/cmsis-plus/rtos/os-main.cpp]: the weak default
    [main ()] that initialises the scheduler, packs the arguments of
    [os_main] into a static capsule, creates the main thread on a static
    stack with [_main_trampoline] as its body, starts the scheduler and
    joins the thread.

    The two functions of the file are written as programs over the
    operations they perform (stores and loads on the static objects, and
    calls to the collaborators outside the file).  The collaborators, that
    is the scheduler, the [Thread] class, [std::exit] and the user's entry
    point, are given a meaning by handlers that are parametrised by what
    the file cannot know: the kind of kernel and what the user's entry
    point does. *)

From Stdlib Require Import ZArith List String Bool Lia.
Import ListNotations.
Local Open Scope Z_scope.

(** ** Data *)

(** The C [int].  The file only moves such values around and does no
    arithmetic on them, so nothing is ever wrapped; every representable
    [int] is a [Z]. *)
Definition int := Z.

(** [char**]: the null pointer, or the vector it points to. *)
Definition char_pp := option (list string).

(** [main_func_t] (line 38): a pointer to a function taking an [int]
    count and a vector of strings and returning an [int].  [os_main] is
    the one the file names. *)
Inductive main_func_t : Type :=
| null_main_func
| os_main
| other_main_func (id : nat).

(** [main_args_t] (lines 40-45). *)
Record main_args_t : Type := mk_main_args
  { func : main_func_t;
    argc : int;
    argv : char_pp }.

(** The named objects of [main]: its four function-local statics and its
    two parameters. *)
Inductive object : Type :=
| obj_args
| obj_main_stack
| obj_attr
| obj_main_thread
| obj_argc
| obj_argv.

Inductive pointer : Type :=
| nullptr
| addr_of (o : object).

(** [thread::func_t]: a pointer to a thread body.  The only body defined
    in the file is [_main_trampoline]. *)
Inductive func_t : Type :=
| ptr_main_trampoline
| other_func (id : nat).

(** The fields of [thread::Attributes] that the file touches. *)
Record Attributes : Type := mk_attr
  { th_name : string;
    th_stack_address : pointer;
    th_stack_size_bytes : Z }.

(** ** Sizes *)

(** [std::size_t] as a [Z] in [0, 2^size_t_bits); [to_size_t] is the
    conversion of an integer to it. *)
Definition to_size_t (size_t_bits : Z) (z : Z) : Z := z mod 2 ^ size_t_bits.

(** The bound of the array declared on lines 92-93,
    [OS_INTEGER_RTOS_MAIN_STACK_SIZE_BYTES / sizeof(stack::element_t)],
    a division in [std::size_t]. *)
Definition main_stack_elements (size_t_bits stack_size_bytes sizeof_element : Z) : Z :=
  to_size_t size_t_bits stack_size_bytes / sizeof_element.

(** [sizeof] of an array: the number of elements times the size of one. *)
Definition sizeof_array (elements sizeof_element : Z) : Z :=
  elements * sizeof_element.

(** [sizeof(main_stack)] (line 98). *)
Definition sizeof_main_stack (size_t_bits stack_size_bytes sizeof_element : Z) : Z :=
  sizeof_array (main_stack_elements size_t_bits stack_size_bytes sizeof_element)
               sizeof_element.

(** ** Operations and programs *)

(** What the code of the file does, one constructor per kind of
    statement or call. *)
Inductive op : Type :=
| trace_printf (format : string) (a : Z)
| scheduler_initialize
| store_args_func (f : main_func_t)
| store_args_argc (c : int)
| store_args_argv (v : char_pp)
| attr_construct (name : string)
| store_attr_stack_address (p : pointer)
| store_attr_stack_size_bytes (n : Z)
| thread_construct (this : pointer) (attr : pointer) (f : func_t) (a : pointer)
| scheduler_start
| thread_join (this : pointer)
| load_func (p : pointer)
| load_argc (p : pointer)
| load_argv (p : pointer)
| call (f : main_func_t) (c : int) (v : char_pp)
| std_exit (status : int).

(** The type of what an operation gives back.  [std::exit] gives nothing
    back: it does not return. *)
Definition res (o : op) : Type :=
  match o with
  | load_func _ => main_func_t
  | load_argc _ => int
  | load_argv _ => char_pp
  | call _ _ _ => int
  | std_exit _ => Empty_set
  | _ => unit
  end.

Inductive prog (R : Type) : Type :=
| Ret (r : R)
| Do (o : op) (k : res o -> prog R).

Arguments Ret {R} r.
Arguments Do {R} o k.

Fixpoint bind {A B : Type} (p : prog A) (f : A -> prog B) : prog B :=
  match p with
  | Ret a => f a
  | Do o k => Do o (fun x => bind (k x) f)
  end.

Definition perform (o : op) : prog (res o) := Do o Ret.

(** A call that does not return has no continuation. *)
Definition noreturn {R : Type} (o : op) (absurd : res o -> Empty_set) : prog R :=
  Do o (fun x => match absurd x with end).

Declare Scope prog_scope.
Delimit Scope prog_scope with prog.
Notation "x <- p ;; q" := (bind p (fun x => q))
  (at level 61, p at next level, right associativity) : prog_scope.
Notation "p ;; q" := (bind p (fun _ => q))
  (at level 61, right associativity) : prog_scope.
Local Open Scope prog_scope.

(** ** The two functions of the file *)

Definition newline : string := String (Ascii.ascii_of_nat 10) EmptyString.

(** [_main_trampoline] (lines 49-53):
    [std::exit (args->func (args->argc, args->argv))]. *)
Definition _main_trampoline (args : pointer) : prog unit :=
  f <- perform (load_func args) ;;
  c <- perform (load_argc args) ;;
  v <- perform (load_argv args) ;;
  status <- perform (call f c v) ;;
  noreturn (std_exit status) (fun x => x).

Section Configuration.

(** What the file takes from its headers: the global [SystemCoreClock],
    the macro [OS_INTEGER_RTOS_MAIN_STACK_SIZE_BYTES], the size of
    [stack::element_t] and the width of [std::size_t]. *)
Variable SystemCoreClock : Z.
Variable size_t_bits : Z.
Variable OS_INTEGER_RTOS_MAIN_STACK_SIZE_BYTES : Z.
Variable sizeof_element_t : Z.

(** [main] (lines 66-112). *)
Definition main (argc : int) (argv : char_pp) : prog int :=
  perform (trace_printf ("System clock: %u Hz" ++ newline) SystemCoreClock) ;;
  perform scheduler_initialize ;;
  perform (store_args_func os_main) ;;
  perform (store_args_argc argc) ;;
  perform (store_args_argv argv) ;;
  perform (attr_construct "main") ;;
  perform (store_attr_stack_address (addr_of obj_main_stack)) ;;
  perform (store_attr_stack_size_bytes
             (sizeof_main_stack size_t_bits
                OS_INTEGER_RTOS_MAIN_STACK_SIZE_BYTES sizeof_element_t)) ;;
  perform (thread_construct (addr_of obj_main_thread) (addr_of obj_attr)
             ptr_main_trampoline (addr_of obj_args)) ;;
  perform scheduler_start ;;
  perform (thread_join (addr_of obj_main_thread)) ;;
  Ret 0.

End Configuration.

(** ** The state of the process *)

(** The main thread is either still to run the rest of its body, or it is
    inside a call that never returns, or it has reached its terminal
    state. *)
Inductive thread_state : Type :=
| ready (rest : prog unit)
| in_call_forever
| terminated.

(** What the [Thread] object holds once constructed: the attributes it
    was given, its body, the argument of the body, and its state. *)
Record Thread : Type := mk_thread
  { thr_attr : Attributes;
    thr_func : func_t;
    thr_args : pointer;
    thr_state : thread_state }.

(** Who performs an operation: the context that entered [main], or the
    main thread. *)
Inductive context : Type :=
| Boot
| MainThread.

Definition event : Type := context * op.

(** The three statics of [main] that carry a value ([main_stack] is only
    ever used through its address and size), the scheduler, and the
    operations performed so far, oldest first. *)
Record state : Type := mk_state
  { s_args : main_args_t;
    s_attr : option Attributes;
    s_main_thread : option Thread;
    s_scheduler_initialized : bool;
    s_scheduler_started : bool;
    s_trace : list event }.

(** At process start the statics are zero-initialised, and the objects
    with a constructor are not constructed yet. *)
Definition initial_state : state :=
  {| s_args := mk_main_args null_main_func 0 None;
     s_attr := None;
     s_main_thread := None;
     s_scheduler_initialized := false;
     s_scheduler_started := false;
     s_trace := [] |}.

Definition set_args (a : main_args_t) (st : state) : state :=
  let '(mk_state _ at_ th si ss tr) := st in mk_state a at_ th si ss tr.

Definition set_attr (a : option Attributes) (st : state) : state :=
  let '(mk_state ar _ th si ss tr) := st in mk_state ar a th si ss tr.

Definition set_main_thread (t : option Thread) (st : state) : state :=
  let '(mk_state ar at_ _ si ss tr) := st in mk_state ar at_ t si ss tr.

Definition set_scheduler_initialized (st : state) : state :=
  let '(mk_state ar at_ th _ ss tr) := st in mk_state ar at_ th true ss tr.

Definition set_scheduler_started (st : state) : state :=
  let '(mk_state ar at_ th si _ tr) := st in mk_state ar at_ th si true tr.

Definition log (c : context) (o : op) (st : state) : state :=
  let '(mk_state ar at_ th si ss tr) := st in
  mk_state ar at_ th si ss (tr ++ [(c, o)]).

Definition set_thread_state (ts : thread_state) (st : state) : state :=
  match s_main_thread st with
  | Some t =>
      set_main_thread
        (Some (mk_thread (thr_attr t) (thr_func t) (thr_args t) ts)) st
  | None => st
  end.

(** ** Running a program *)

(** How a run can end other than by returning to its caller. *)
Inductive halt : Type :=
| Exited (status : int)   (* [std::exit] ended the process with this status *)
| Forever                 (* control never comes back *)
| ThreadEnded             (* the calling thread was ended inside a call *)
| Fatal                   (* the kernel reported a fatal configuration error *)
| Undefined.              (* undefined behaviour, or a use the model does not cover *)

Inductive reply (X : Type) : Type :=
| Continue (x : X) (st : state)
| Stop (h : halt) (st : state).

Arguments Continue {X} x st.
Arguments Stop {X} h st.

Inductive result (R : Type) : Type :=
| Returned (r : R)
| Paused (rest : prog R)
| Halted (h : halt).

Arguments Returned {R} r.
Arguments Paused {R} rest.
Arguments Halted {R} h.

Definition handler : Type := forall o : op, state -> reply (res o).

(** How many operations a context may perform before it is preempted. *)
Inductive budget : Type :=
| unlimited
| ops (n : nat).

Definition spent (b : budget) : bool :=
  match b with
  | ops O => true
  | _ => false
  end.

Definition tick (b : budget) : budget :=
  match b with
  | unlimited => unlimited
  | ops n => ops (Nat.pred n)
  end.

(** [run c h b p st] performs the operations of [p] one after the other
    in context [c], each recorded in the trace and then given its meaning
    by [h], until [p] returns, an operation stops the run, or the budget
    is spent. *)
Fixpoint run {R : Type} (c : context) (h : handler) (b : budget)
  (p : prog R) (st : state) : result R * state :=
  match p with
  | Ret r => (Returned r, st)
  | Do o k =>
      if spent b then (Paused p, st)
      else
        match h o (log c o st) with
        | Continue x st' => run c h (tick b) (k x) st'
        | Stop hl st' => (Halted hl, st')
        end
  end.

(** ** The collaborators *)

(** What a call of a user entry point does: it returns an [int], or it
    never returns, either because it runs forever or because the thread
    that made the call is ended while inside it (the thread exits through
    the kernel, or is killed). *)
Inductive behaviour : Type :=
| returns (v : int)
| runs_forever
| ends_thread.

(** What the file cannot know about the kernel it is linked with:
    whether [scheduler::start] returns to its caller; on a kernel where it
    does, how many operations the created thread performs before the
    caller of [start] runs again; and which attributes the constructor of
    [Thread] accepts (it reports a fatal error on the others). *)
Record kernel : Type := mk_kernel
  { start_returns : bool;
    head_start : nat;
    thread_accepts : Attributes -> bool }.

Section Semantics.

Variable user : main_func_t -> int -> char_pp -> behaviour.
Variable K : kernel.

(** The meaning of the operations a thread body of this file performs:
    the stores and loads on the statics, the call through the captured
    pointer and [std::exit].  A load through a pointer to anything but
    [args], a store to [attr] before it is constructed and a call through
    a null pointer are undefined.  [std::exit] ends the process at once:
    the exit handlers and static destructors it runs are outside the file
    and are not modelled.  The kernel calls get their meaning in
    [boot_handler]; no thread body of this file makes one. *)
Definition thread_handler : handler :=
  fun o st =>
    match o as o' return reply (res o') with
    | trace_printf _ _ => Continue tt st
    | store_args_func f =>
        Continue tt (set_args (mk_main_args f (argc (s_args st)) (argv (s_args st))) st)
    | store_args_argc c =>
        Continue tt (set_args (mk_main_args (func (s_args st)) c (argv (s_args st))) st)
    | store_args_argv v =>
        Continue tt (set_args (mk_main_args (func (s_args st)) (argc (s_args st)) v) st)
    | attr_construct name =>
        Continue tt (set_attr (Some (mk_attr name nullptr 0)) st)
    | store_attr_stack_address p =>
        match s_attr st with
        | Some a =>
            Continue tt (set_attr (Some (mk_attr (th_name a) p (th_stack_size_bytes a))) st)
        | None => Stop Undefined st
        end
    | store_attr_stack_size_bytes n =>
        match s_attr st with
        | Some a =>
            Continue tt (set_attr (Some (mk_attr (th_name a) (th_stack_address a) n)) st)
        | None => Stop Undefined st
        end
    | load_func p =>
        match p with
        | addr_of obj_args => Continue (func (s_args st)) st
        | _ => Stop Undefined st
        end
    | load_argc p =>
        match p with
        | addr_of obj_args => Continue (argc (s_args st)) st
        | _ => Stop Undefined st
        end
    | load_argv p =>
        match p with
        | addr_of obj_args => Continue (argv (s_args st)) st
        | _ => Stop Undefined st
        end
    | call f c v =>
        match f with
        | null_main_func => Stop Undefined st
        | _ =>
            match user f c v with
            | returns r => Continue r st
            | runs_forever => Stop Forever st
            | ends_thread => Stop ThreadEnded st
            end
        end
    | std_exit status => Stop (Exited status) st
    | scheduler_initialize => Stop Undefined st
    | thread_construct _ _ _ _ => Stop Undefined st
    | scheduler_start => Stop Undefined st
    | thread_join _ => Stop Undefined st
    end.

(** The code a thread body pointer points to. *)
Definition body_of (f : func_t) : option (pointer -> prog unit) :=
  match f with
  | ptr_main_trampoline => Some _main_trampoline
  | other_func _ => None
  end.

(** The scheduler lets the main thread perform up to [b] operations.
    Nothing runs before the scheduler is started.  A [std::exit] in the
    thread ends the whole process, so it stops the caller as well. *)
Definition dispatch (b : budget) (st : state) : reply unit :=
  if s_scheduler_started st then
    match s_main_thread st with
    | Some t =>
        match thr_state t with
        | ready p =>
            match run MainThread thread_handler b p st with
            | (Returned _, st') => Continue tt (set_thread_state terminated st')
            | (Paused rest, st') => Continue tt (set_thread_state (ready rest) st')
            | (Halted ThreadEnded, st') => Continue tt (set_thread_state terminated st')
            | (Halted Forever, st') => Continue tt (set_thread_state in_call_forever st')
            | (Halted hl, st') => Stop hl st'
            end
        | _ => Continue tt st
        end
    | None => Continue tt st
    end
  else Continue tt st.

Definition main_thread_terminated (st : state) : bool :=
  match s_main_thread st with
  | Some t =>
      match thr_state t with
      | terminated => true
      | _ => false
      end
  | None => false
  end.

(** The meaning of the operations in the context that runs [main].
    The constructor of [Thread] needs an initialised scheduler, reads the
    attributes through the reference it is given and either reports a
    fatal error or registers the thread with its body still to run.
    [scheduler::start] on a kernel that keeps the processor runs the
    thread and never comes back; on a kernel that returns it comes back
    after the head start of the thread.  [join] lets the thread run and
    comes back only once the thread is in its terminal state. *)
Definition boot_handler : handler :=
  fun o st =>
    match o as o' return reply (res o') with
    | scheduler_initialize => Continue tt (set_scheduler_initialized st)
    | thread_construct this attr f a =>
        if s_scheduler_initialized st then
          match this, attr, s_attr st, s_main_thread st, body_of f with
          | addr_of obj_main_thread, addr_of obj_attr, Some at_, None, Some body =>
              if thread_accepts K at_ then
                Continue tt
                  (set_main_thread (Some (mk_thread at_ f a (ready (body a)))) st)
              else Stop Fatal st
          | _, _, _, _, _ => Stop Undefined st
          end
        else Stop Undefined st
    | scheduler_start =>
        if s_scheduler_initialized st then
          if start_returns K then
            dispatch (ops (head_start K)) (set_scheduler_started st)
          else
            match dispatch unlimited (set_scheduler_started st) with
            | Continue _ st' => Stop Forever st'
            | Stop hl st' => Stop hl st'
            end
        else Stop Undefined st
    | thread_join this =>
        match this, s_main_thread st with
        | addr_of obj_main_thread, Some _ =>
            match dispatch unlimited st with
            | Continue _ st' =>
                if main_thread_terminated st' then Continue tt st'
                else Stop Forever st'
            | Stop hl st' => Stop hl st'
            end
        | _, _ => Stop Undefined st
        end
    | o' => thread_handler o' st
    end.

End Semantics.

Section Runs.

Variable SystemCoreClock : Z.
Variable size_t_bits : Z.
Variable OS_INTEGER_RTOS_MAIN_STACK_SIZE_BYTES : Z.
Variable sizeof_element_t : Z.
Variable user : main_func_t -> int -> char_pp -> behaviour.
Variable K : kernel.

(** The process from its start: [main] is entered with [argc] and
    [argv] and runs in the boot context on kernel [K]. *)
Definition run_main (argc : int) (argv : char_pp) : result int * state :=
  run Boot (boot_handler user K) unlimited
      (main SystemCoreClock size_t_bits OS_INTEGER_RTOS_MAIN_STACK_SIZE_BYTES
         sizeof_element_t argc argv)
      initial_state.

(** The main thread from its first operation to its last: the trampoline
    runs on [st] with [a] as its argument. *)
Definition run_trampoline (a : pointer) (st : state) : result unit * state :=
  run MainThread (thread_handler user) unlimited (_main_trampoline a) st.

End Runs.

(** ** Reading a trace *)

Definition is_scheduler_initialize (o : op) : bool :=
  match o with scheduler_initialize => true | _ => false end.

Definition is_store_args_func (o : op) : bool :=
  match o with store_args_func _ => true | _ => false end.

Definition is_store_args_argc (o : op) : bool :=
  match o with store_args_argc _ => true | _ => false end.

Definition is_store_args_argv (o : op) : bool :=
  match o with store_args_argv _ => true | _ => false end.

Definition is_store_args (o : op) : bool :=
  is_store_args_func o || is_store_args_argc o || is_store_args_argv o.

Definition is_store_attr_stack_address (o : op) : bool :=
  match o with store_attr_stack_address _ => true | _ => false end.

Definition is_store_attr_stack_size_bytes (o : op) : bool :=
  match o with store_attr_stack_size_bytes _ => true | _ => false end.

Definition is_thread_construct (o : op) : bool :=
  match o with thread_construct _ _ _ _ => true | _ => false end.

Definition is_scheduler_start (o : op) : bool :=
  match o with scheduler_start => true | _ => false end.

Definition is_thread_join (o : op) : bool :=
  match o with thread_join _ => true | _ => false end.

Definition is_load_func (o : op) : bool :=
  match o with load_func _ => true | _ => false end.

Definition is_load_argc (o : op) : bool :=
  match o with load_argc _ => true | _ => false end.

Definition is_load_argv (o : op) : bool :=
  match o with load_argv _ => true | _ => false end.

Definition is_call (o : op) : bool :=
  match o with call _ _ _ => true | _ => false end.

Definition is_std_exit (o : op) : bool :=
  match o with std_exit _ => true | _ => false end.

Definition in_boot (e : event) : bool :=
  match fst e with Boot => true | MainThread => false end.

Definition in_main_thread (e : event) : bool :=
  match fst e with Boot => false | MainThread => true end.

(** The events of a trace whose operation satisfies [P]. *)
Definition select (P : op -> bool) (t : list event) : list event :=
  filter (fun e => P (snd e)) t.

(** How many times an operation satisfying [P] is performed. *)
Definition count (P : op -> bool) (t : list event) : nat :=
  List.length (select P t).

(** What follows the first operation satisfying [P]. *)
Fixpoint after (P : op -> bool) (t : list event) : list event :=
  match t with
  | [] => []
  | e :: t' => if P (snd e) then t' else after P t'
  end.

(** Every operation satisfying [Q] comes strictly after one satisfying
    [P]. *)
Definition precedes (P Q : op -> bool) (t : list event) : Prop :=
  forall t1 e t2,
    t = t1 ++ e :: t2 -> Q (snd e) = true ->
    exists e', In e' t1 /\ P (snd e') = true.

(** The same, decided with [seen] telling whether a [P] was met. *)
Fixpoint precedesb (P Q : op -> bool) (seen : bool) (t : list event) : bool :=
  match t with
  | [] => true
  | e :: t' =>
      (if Q (snd e) then seen else true) && precedesb P Q (seen || P (snd e)) t'
  end.

(** The attributes [main] builds on lines 95-98, for a stack of [size]
    bytes. *)
Definition main_attributes (size : Z) : Attributes :=
  mk_attr "main" (addr_of obj_main_stack) size.

(** The events of the trampoline up to the call of the entry point, for
    a capsule holding [f], [c] and [v]. *)
Definition trampoline_prefix (f : main_func_t) (c : int) (v : char_pp)
  : list event :=
  [ (MainThread, load_func (addr_of obj_args));
    (MainThread, load_argc (addr_of obj_args));
    (MainThread, load_argv (addr_of obj_args));
    (MainThread, call f c v) ].

(** ** The kernel of the specification *)

(** Modelled from the spec: the constructor of [Thread], the thread
    creation facility of the kernel, whose code is not part of this file.
    The specification says of it that an undersized stack and the
    exhaustion of the thread table are fatal configuration errors
    reported by the kernel, and that with a configured stack size of 0
    the creation is reported as such an error and never silently
    succeeds.  [min_stack_bytes] is the least stack the kernel takes and
    [control_blocks_free] the room left in its thread table. *)
Definition spec_thread_accepts (min_stack_bytes : Z) (control_blocks_free : nat)
  (a : Attributes) : bool :=
  (0 <? th_stack_size_bytes a)
  && (min_stack_bytes <=? th_stack_size_bytes a)
  && negb (Nat.eqb control_blocks_free 0).

(** ** Sample collaborators *)

(** Entry points with each of the three behaviours, a kernel whose
    [start] keeps the processor, as on an embedded target, and one whose
    [start] returns after the new thread has performed [head] operations,
    as on a hosted synthetic target. *)
Definition entry_returning (v : int) : main_func_t -> int -> char_pp -> behaviour :=
  fun _ _ _ => returns v.

Definition entry_looping : main_func_t -> int -> char_pp -> behaviour :=
  fun _ _ _ => runs_forever.

Definition entry_leaving_thread : main_func_t -> int -> char_pp -> behaviour :=
  fun _ _ _ => ends_thread.

Definition embedded_kernel : kernel :=
  mk_kernel false 0 (fun _ => true).

Definition hosted_kernel (head : nat) : kernel :=
  mk_kernel true head (fun _ => true).

Definition sample_argv : char_pp := Some ["prog"; "-x"; "42"]%string.

Definition sample_capsule_state : state :=
  set_args (mk_main_args os_main 3 sample_argv) initial_state.

(** ** Tactics *)

(** After the case analysis, bring the run to its value. *)
Ltac evaluate Hacc Hu :=
  let Hacc' := fresh Hacc in
  pose proof Hacc as Hacc'; unfold main_attributes in Hacc';
  cbn; rewrite ?Hacc', ?Hacc; cbn; rewrite ?Hu; cbn; clear Hacc'.

(** Case analysis on everything a run of [main] depends on: whether the
    kernel accepts the thread, whether its [start] returns, the head
    start it gives the thread (none, one to four operations, or enough
    for the whole body) and what the entry point does. *)
Ltac run_main_cases K user argc argv :=
  unfold run_main, main;
  match goal with
  | |- context [sizeof_main_stack ?b ?n ?e] =>
      let sz := fresh "sz" in
      let Hsz := fresh "Hsz" in
      remember (sizeof_main_stack b n e) as sz eqn:Hsz;
      let sr := fresh "sr" in
      let hs := fresh "hs" in
      let acc := fresh "acc" in
      let Hacc := fresh "Hacc" in
      let Hu := fresh "Hu" in
      destruct K as [sr hs acc];
      destruct (acc (main_attributes sz)) eqn:Hacc;
      [ destruct sr;
        [ destruct hs as [|[|[|[|[|hs]]]]] | ];
        destruct (user os_main argc argv) eqn:Hu
      | ];
      evaluate Hacc Hu
  end.

(** ** Facts about traces *)

Lemma precedesb_sound_from (P Q : op -> bool) (t : list event) :
  forall (seen : bool) (past : list event),
    (seen = true -> exists e', In e' past /\ P (snd e') = true) ->
    precedesb P Q seen t = true ->
    forall t1 e t2,
      t = t1 ++ e :: t2 -> Q (snd e) = true ->
      exists e', In e' (past ++ t1) /\ P (snd e') = true.
Proof.
  induction t as [|x t IH]; intros seen past Hseen Hb t1 e t2 Ht HQ.
  - destruct t1; discriminate.
  - cbn in Hb. apply andb_true_iff in Hb. destruct Hb as [Hx Hrest].
    destruct t1 as [|y t1]; cbn in Ht; injection Ht as <- Ht.
    + rewrite HQ in Hx. rewrite app_nil_r. auto.
    + assert (Hpast : seen || P (snd x) = true ->
                      exists e', In e' (past ++ [x]) /\ P (snd e') = true).
      { intros Hor. apply orb_true_iff in Hor. destruct Hor as [Hs|Hp].
        - destruct (Hseen Hs) as [e' [Hin HP]].
          exists e'. split; [apply in_or_app; now left | exact HP].
        - exists x. split; [apply in_or_app; right; now left | exact Hp]. }
      destruct (IH _ _ Hpast Hrest _ _ _ Ht HQ) as [e' [Hin HP]].
      exists e'. split; [|exact HP].
      rewrite <- app_assoc in Hin. exact Hin.
Qed.

Lemma precedesb_sound (P Q : op -> bool) (t : list event) :
  precedesb P Q false t = true -> precedes P Q t.
Proof.
  intros Hb t1 e t2 Ht HQ.
  apply (precedesb_sound_from P Q t false [] ltac:(discriminate) Hb t1 e t2 Ht HQ).
Qed.

(** ** Facts about sizes *)

Lemma sizeof_main_stack_in_range (bits n e : Z) :
  0 <= n < 2 ^ bits ->
  sizeof_main_stack bits n e = n / e * e.
Proof.
  intros Hn. unfold sizeof_main_stack, sizeof_array, main_stack_elements, to_size_t.
  rewrite Z.mod_small by exact Hn. reflexivity.
Qed.

Lemma sizeof_main_stack_zero (bits e : Z) : sizeof_main_stack bits 0 e = 0.
Proof. reflexivity. Qed.

(** ** The trampoline *)

Section Trampoline.

Variable user : main_func_t -> int -> char_pp -> behaviour.

(** The whole run of the trampoline on a capsule [(f, c, a)]: three
    loads, the call, and, when the call returns, [std::exit]. *)
Lemma run_trampoline_eq (st : state) (f : main_func_t) (c : int) (a : char_pp) :
  s_args st = mk_main_args f c a -> f <> null_main_func ->
  run_trampoline user (addr_of obj_args) st =
  match user f c a with
  | returns v =>
      (Halted (Exited v),
       mk_state (s_args st) (s_attr st) (s_main_thread st)
         (s_scheduler_initialized st) (s_scheduler_started st)
         (s_trace st ++ trampoline_prefix f c a ++ [(MainThread, std_exit v)]))
  | runs_forever =>
      (Halted Forever,
       mk_state (s_args st) (s_attr st) (s_main_thread st)
         (s_scheduler_initialized st) (s_scheduler_started st)
         (s_trace st ++ trampoline_prefix f c a))
  | ends_thread =>
      (Halted ThreadEnded,
       mk_state (s_args st) (s_attr st) (s_main_thread st)
         (s_scheduler_initialized st) (s_scheduler_started st)
         (s_trace st ++ trampoline_prefix f c a))
  end.
Proof.
  intros Hst Hf. destruct st as [ar at_ th si ss tr]. cbn in Hst. subst ar.
  unfold run_trampoline, _main_trampoline, trampoline_prefix.
  destruct f; try congruence; cbn;
    destruct (user _ c a); cbn; unfold log; cbn;
    rewrite <- !app_assoc; reflexivity.
Qed.

(** C1: whatever integer [v] the user entry point returns, zero and
    negative values included, the trampoline ends the process with
    [std::exit v]: the run halts as [Exited v], and the last operation
    of the thread is the exit request carrying exactly [v]. *)
Theorem trampoline_exit_status_verbatim
  (st : state) (f : main_func_t) (c : int) (a : char_pp) (v : int) :
  s_args st = mk_main_args f c a -> f <> null_main_func ->
  user f c a = returns v ->
  fst (run_trampoline user (addr_of obj_args) st) = Halted (Exited v) /\
  s_trace (snd (run_trampoline user (addr_of obj_args) st)) =
    s_trace st ++ trampoline_prefix f c a ++ [(MainThread, std_exit v)].
Proof.
  intros Hst Hf Hu. rewrite (run_trampoline_eq st f c a Hst Hf), Hu.
  split; reflexivity.
Qed.

(** C2: given a pointer to a capsule [(f, c, a)], the trampoline calls
    [f] exactly once, with exactly [c] and [a], and leaves the capsule
    as it was; when the call returns [v] the next and last operation is
    [std::exit v], and when it does not return nothing follows it. *)
Theorem trampoline_calls_captured_entry
  (st : state) (f : main_func_t) (c : int) (a : char_pp) :
  s_args st = mk_main_args f c a -> f <> null_main_func ->
  s_args (snd (run_trampoline user (addr_of obj_args) st)) = mk_main_args f c a /\
  exists tail : list event,
    s_trace (snd (run_trampoline user (addr_of obj_args) st)) =
      s_trace st ++ trampoline_prefix f c a ++ tail /\
    select is_call (trampoline_prefix f c a ++ tail) = [(MainThread, call f c a)] /\
    match user f c a with
    | returns v =>
        tail = [(MainThread, std_exit v)] /\
        fst (run_trampoline user (addr_of obj_args) st) = Halted (Exited v)
    | runs_forever =>
        tail = [] /\
        fst (run_trampoline user (addr_of obj_args) st) = Halted Forever
    | ends_thread =>
        tail = [] /\
        fst (run_trampoline user (addr_of obj_args) st) = Halted ThreadEnded
    end.
Proof.
  intros Hst Hf. rewrite (run_trampoline_eq st f c a Hst Hf).
  destruct (user f c a) as [v| |]; cbn [fst snd s_args s_trace].
  - split; [exact Hst|]. exists [(MainThread, std_exit v)]. repeat split; reflexivity.
  - split; [exact Hst|]. exists []. rewrite app_nil_r. repeat split; reflexivity.
  - split; [exact Hst|]. exists []. rewrite app_nil_r. repeat split; reflexivity.
Qed.

End Trampoline.

Lemma trampoline_exit_status_verbatim_witness :
  s_args sample_capsule_state = mk_main_args os_main 3 sample_argv /\
  os_main <> null_main_func /\
  entry_returning (-5) os_main 3 sample_argv = returns (-5) /\
  fst (run_trampoline (entry_returning (-5)) (addr_of obj_args) sample_capsule_state)
  = Halted (Exited (-5)).
Proof.
  assert (Hf : os_main <> null_main_func) by (intros H; discriminate H).
  split; [reflexivity|]. split; [exact Hf|]. split; [reflexivity|].
  exact (proj1 (trampoline_exit_status_verbatim (entry_returning (-5))
                  sample_capsule_state os_main 3 sample_argv (-5)
                  eq_refl Hf eq_refl)).
Defined.

Lemma trampoline_calls_captured_entry_witness :
  s_args sample_capsule_state = mk_main_args os_main 3 sample_argv /\
  os_main <> null_main_func /\
  s_args (snd (run_trampoline entry_looping (addr_of obj_args) sample_capsule_state))
  = mk_main_args os_main 3 sample_argv.
Proof.
  assert (Hf : os_main <> null_main_func) by (intros H; discriminate H).
  split; [reflexivity|]. split; [exact Hf|].
  exact (proj1 (trampoline_calls_captured_entry entry_looping
                  sample_capsule_state os_main 3 sample_argv eq_refl Hf)).
Defined.

(** ** The bootstrap *)

Section Bootstrap.

Variable SystemCoreClock : Z.
Variable size_t_bits : Z.
Variable OS_INTEGER_RTOS_MAIN_STACK_SIZE_BYTES : Z.
Variable sizeof_element_t : Z.
Variable user : main_func_t -> int -> char_pp -> behaviour.
Variable K : kernel.

Local Abbreviation installed :=
  (sizeof_main_stack size_t_bits OS_INTEGER_RTOS_MAIN_STACK_SIZE_BYTES
     sizeof_element_t).
Local Abbreviation boot :=
  (run_main SystemCoreClock size_t_bits OS_INTEGER_RTOS_MAIN_STACK_SIZE_BYTES
     sizeof_element_t user K).

(** C3: once the main thread is created, the bootstrap completes in one
    of two ways.  On a kernel whose [scheduler::start] does not return,
    the boot context performs nothing after the start call, and the run
    ends with the process exited by the trampoline or goes on forever;
    it never crashes.  On a kernel whose [start] returns, the only thing
    the boot context does after it is to join the main thread: it stays
    blocked while the thread does not reach its terminal state, and when
    the thread does reach it [main] returns 0. *)
Theorem lifetime_synchronizer_dual_contract (argc : int) (argv : char_pp) :
  thread_accepts K (main_attributes installed) = true ->
  (start_returns K = false ->
   filter in_boot (after is_scheduler_start (s_trace (snd (boot argc argv)))) = [] /\
   match user os_main argc argv with
   | returns v => fst (boot argc argv) = Halted (Exited v)
   | runs_forever | ends_thread => fst (boot argc argv) = Halted Forever
   end) /\
  (start_returns K = true ->
   (forall e,
       In e (filter in_boot
               (after is_scheduler_start (s_trace (snd (boot argc argv))))) ->
       e = (Boot, thread_join (addr_of obj_main_thread))) /\
   match user os_main argc argv with
   | returns v => fst (boot argc argv) = Halted (Exited v)
   | runs_forever =>
       fst (boot argc argv) = Halted Forever /\
       main_thread_terminated (snd (boot argc argv)) = false /\
       select is_thread_join (s_trace (snd (boot argc argv))) =
         [(Boot, thread_join (addr_of obj_main_thread))]
   | ends_thread =>
       fst (boot argc argv) = Returned 0 /\
       main_thread_terminated (snd (boot argc argv)) = true /\
       select is_thread_join (s_trace (snd (boot argc argv))) =
         [(Boot, thread_join (addr_of obj_main_thread))]
   end).
Proof.
  intros Hok.
  run_main_cases K user argc argv; cbn in Hok;
    try (exfalso; congruence);
    (split; intros Hsr; try discriminate Hsr);
    repeat split; try reflexivity;
    intros e He; cbn in He; intuition.
Qed.

(** C4: when the user entry point returns, [main] never returns: the
    main thread is not in its terminal state at the end of the run, so
    no join on it has completed, and once the thread exists the run ends
    in the [std::exit] of the trampoline with the value returned. *)
Theorem exit_preempts_return (argc : int) (argv : char_pp) (v : int) :
  user os_main argc argv = returns v ->
  (forall x, fst (boot argc argv) <> Returned x) /\
  main_thread_terminated (snd (boot argc argv)) = false /\
  (thread_accepts K (main_attributes installed) = true ->
   fst (boot argc argv) = Halted (Exited v) /\
   select is_std_exit (s_trace (snd (boot argc argv))) = [(MainThread, std_exit v)]).
Proof.
  intros Hv.
  run_main_cases K user argc argv;
    try congruence;
    (split; [intros x; discriminate|]);
    (split; [reflexivity|]);
    intros; try congruence; split; congruence.
Qed.

(** C5: in every run of [main] the scheduler is initialised once and the
    creation of the main thread is attempted once; the initialisation
    and the three stores into the capsule come before the creation, and
    the creation comes before the start of the scheduler.  The creation
    never finds the scheduler uninitialised: the kernel of the model
    answers such an attempt with [Undefined], and no run of [main] ends
    so. *)
Theorem bootstrap_ordering (argc : int) (argv : char_pp) :
  count is_scheduler_initialize (s_trace (snd (boot argc argv))) = 1%nat /\
  count is_thread_construct (s_trace (snd (boot argc argv))) = 1%nat /\
  precedes is_scheduler_initialize is_thread_construct (s_trace (snd (boot argc argv))) /\
  precedes is_store_args_func is_thread_construct (s_trace (snd (boot argc argv))) /\
  precedes is_store_args_argc is_thread_construct (s_trace (snd (boot argc argv))) /\
  precedes is_store_args_argv is_thread_construct (s_trace (snd (boot argc argv))) /\
  precedes is_thread_construct is_scheduler_start (s_trace (snd (boot argc argv))) /\
  fst (boot argc argv) <> Halted Undefined /\
  (forall (st : state) (this attr : pointer) (f : func_t) (a : pointer),
      s_scheduler_initialized st = false ->
      boot_handler user K (thread_construct this attr f a) st = Stop Undefined st).
Proof.
  run_main_cases K user argc argv;
    repeat (split;
            [first [reflexivity | discriminate | apply precedesb_sound; reflexivity]|]);
    intros st this attr f a Hst; rewrite Hst; reflexivity.
Qed.

(** C6: the attributes hold the address of [main_stack] and its extent
    in bytes, the number of its elements times the size of one: at the
    end of every run, in the thread that was created from them, and in
    the only two stores that ever set these fields; the creation is
    given these attributes and no others. *)
Theorem attributes_reference_stack_buffer (argc : int) (argv : char_pp) :
  s_attr (snd (boot argc argv)) =
    Some (mk_attr "main" (addr_of obj_main_stack)
            (main_stack_elements size_t_bits OS_INTEGER_RTOS_MAIN_STACK_SIZE_BYTES
               sizeof_element_t * sizeof_element_t)) /\
  (forall t, s_main_thread (snd (boot argc argv)) = Some t ->
     th_stack_address (thr_attr t) = addr_of obj_main_stack /\
     th_stack_size_bytes (thr_attr t) =
       main_stack_elements size_t_bits OS_INTEGER_RTOS_MAIN_STACK_SIZE_BYTES
         sizeof_element_t * sizeof_element_t) /\
  select is_store_attr_stack_address (s_trace (snd (boot argc argv))) =
    [(Boot, store_attr_stack_address (addr_of obj_main_stack))] /\
  select is_store_attr_stack_size_bytes (s_trace (snd (boot argc argv))) =
    [(Boot, store_attr_stack_size_bytes
              (main_stack_elements size_t_bits OS_INTEGER_RTOS_MAIN_STACK_SIZE_BYTES
                 sizeof_element_t * sizeof_element_t))] /\
  select is_thread_construct (s_trace (snd (boot argc argv))) =
    [(Boot, thread_construct (addr_of obj_main_thread) (addr_of obj_attr)
              ptr_main_trampoline (addr_of obj_args))].
Proof.
  change (main_stack_elements size_t_bits OS_INTEGER_RTOS_MAIN_STACK_SIZE_BYTES
            sizeof_element_t * sizeof_element_t) with installed.
  run_main_cases K user argc argv;
    (split; [reflexivity|]);
    (split; [intros t Ht; try discriminate Ht; injection Ht as <-; split; reflexivity|]);
    repeat split; reflexivity.
Qed.

(** C8: each field of the capsule is stored once, by the boot context,
    with [os_main] and the [argc] and [argv] that [main] received, and
    before the creation of the thread; nothing stores into the capsule
    after the creation, and at the end of the run it still holds these
    values.  When the thread is created the trampoline loads each field
    once and calls [os_main] with the [argc] and [argv] stored; when the
    creation is refused the thread performs nothing. *)
Theorem capsule_written_once_read_once (argc : int) (argv : char_pp) :
  select is_store_args (s_trace (snd (boot argc argv))) =
    [(Boot, store_args_func os_main);
     (Boot, store_args_argc argc);
     (Boot, store_args_argv argv)] /\
  precedes is_store_args_func is_thread_construct (s_trace (snd (boot argc argv))) /\
  precedes is_store_args_argc is_thread_construct (s_trace (snd (boot argc argv))) /\
  precedes is_store_args_argv is_thread_construct (s_trace (snd (boot argc argv))) /\
  select is_store_args
    (after is_thread_construct (s_trace (snd (boot argc argv)))) = [] /\
  s_args (snd (boot argc argv)) = mk_main_args os_main argc argv /\
  (if thread_accepts K (main_attributes installed)
   then
     select is_load_func (s_trace (snd (boot argc argv))) =
       [(MainThread, load_func (addr_of obj_args))] /\
     select is_load_argc (s_trace (snd (boot argc argv))) =
       [(MainThread, load_argc (addr_of obj_args))] /\
     select is_load_argv (s_trace (snd (boot argc argv))) =
       [(MainThread, load_argv (addr_of obj_args))] /\
     select is_call (s_trace (snd (boot argc argv))) =
       [(MainThread, call os_main argc argv)]
   else
     filter in_main_thread (s_trace (snd (boot argc argv))) = []).
Proof.
  run_main_cases K user argc argv;
    (split; [reflexivity|]);
    do 3 (split; [apply precedesb_sound; reflexivity|]);
    repeat split; reflexivity.
Qed.

(** C10: for a configured size that fits [std::size_t] and a positive
    element size, the size stored in the attributes and held by the
    thread is [(OS_INTEGER_RTOS_MAIN_STACK_SIZE_BYTES /
    sizeof(element_t)) * sizeof(element_t)], which is the configured
    size minus its remainder by the element size, and so strictly less
    than the configured size whenever that is not a multiple of the
    element size. *)
Theorem installed_stack_size_rounds_down (argc : int) (argv : char_pp) :
  0 <= OS_INTEGER_RTOS_MAIN_STACK_SIZE_BYTES < 2 ^ size_t_bits ->
  0 < sizeof_element_t ->
  select is_store_attr_stack_size_bytes (s_trace (snd (boot argc argv))) =
    [(Boot, store_attr_stack_size_bytes
              (OS_INTEGER_RTOS_MAIN_STACK_SIZE_BYTES / sizeof_element_t
               * sizeof_element_t))] /\
  (forall t, s_main_thread (snd (boot argc argv)) = Some t ->
     th_stack_size_bytes (thr_attr t) =
       OS_INTEGER_RTOS_MAIN_STACK_SIZE_BYTES / sizeof_element_t * sizeof_element_t) /\
  OS_INTEGER_RTOS_MAIN_STACK_SIZE_BYTES / sizeof_element_t * sizeof_element_t =
    OS_INTEGER_RTOS_MAIN_STACK_SIZE_BYTES
    - OS_INTEGER_RTOS_MAIN_STACK_SIZE_BYTES mod sizeof_element_t /\
  (OS_INTEGER_RTOS_MAIN_STACK_SIZE_BYTES mod sizeof_element_t <> 0 ->
   OS_INTEGER_RTOS_MAIN_STACK_SIZE_BYTES / sizeof_element_t * sizeof_element_t
   < OS_INTEGER_RTOS_MAIN_STACK_SIZE_BYTES).
Proof.
  intros HN HE.
  rewrite <- (sizeof_main_stack_in_range size_t_bits _ sizeof_element_t HN).
  split; [|split].
  - clear. run_main_cases K user argc argv; reflexivity.
  - clear. run_main_cases K user argc argv;
      intros t Ht; try discriminate Ht; injection Ht as <-; reflexivity.
  - rewrite (sizeof_main_stack_in_range size_t_bits _ sizeof_element_t HN).
    pose proof (Z.div_mod OS_INTEGER_RTOS_MAIN_STACK_SIZE_BYTES sizeof_element_t
                  ltac:(lia)) as Hdm.
    pose proof (Z.mod_pos_bound OS_INTEGER_RTOS_MAIN_STACK_SIZE_BYTES
                  sizeof_element_t HE) as Hmod.
    split; lia.
Qed.

End Bootstrap.

Lemma lifetime_synchronizer_dual_contract_witness :
  thread_accepts (hosted_kernel 2)
    (main_attributes (sizeof_main_stack 32 400 4)) = true /\
  start_returns (hosted_kernel 2) = true /\
  fst (run_main 16000000 32 400 4 entry_leaving_thread (hosted_kernel 2)
         3 sample_argv) = Returned 0.
Proof.
  split; [reflexivity|]. split; [reflexivity|].
  exact (proj1 (proj2 (proj2 (lifetime_synchronizer_dual_contract
                                16000000 32 400 4 entry_leaving_thread
                                (hosted_kernel 2) 3 sample_argv eq_refl)
                         eq_refl))).
Defined.

Lemma exit_preempts_return_witness :
  entry_returning 7 os_main 3 sample_argv = returns 7 /\
  thread_accepts (hosted_kernel 4)
    (main_attributes (sizeof_main_stack 32 400 4)) = true /\
  fst (run_main 16000000 32 400 4 (entry_returning 7) (hosted_kernel 4)
         3 sample_argv) = Halted (Exited 7).
Proof.
  split; [reflexivity|]. split; [reflexivity|].
  exact (proj1 (proj2 (proj2 (exit_preempts_return
                                16000000 32 400 4 (entry_returning 7)
                                (hosted_kernel 4) 3 sample_argv 7 eq_refl))
                  eq_refl)).
Defined.

Lemma bootstrap_ordering_witness :
  s_scheduler_initialized initial_state = false /\
  boot_handler entry_looping embedded_kernel
    (thread_construct (addr_of obj_main_thread) (addr_of obj_attr)
       ptr_main_trampoline (addr_of obj_args)) initial_state
  = Stop Undefined initial_state.
Proof.
  split; [reflexivity|].
  apply (bootstrap_ordering 16000000 32 400 4 entry_looping embedded_kernel
           3 sample_argv).
  reflexivity.
Defined.

Lemma attributes_reference_stack_buffer_witness :
  s_main_thread
    (snd (run_main 16000000 32 402 4 entry_looping embedded_kernel 3 sample_argv))
  = Some (mk_thread (main_attributes 400) ptr_main_trampoline (addr_of obj_args)
            in_call_forever) /\
  th_stack_size_bytes (main_attributes 400)
  = main_stack_elements 32 402 4 * 4.
Proof.
  split; [reflexivity|].
  exact (proj2 (proj1 (proj2 (attributes_reference_stack_buffer
                                16000000 32 402 4 entry_looping embedded_kernel
                                3 sample_argv))
                  _ eq_refl)).
Defined.

Lemma installed_stack_size_rounds_down_witness :
  0 <= 402 < 2 ^ 32 /\ 0 < 4 /\ 402 mod 4 <> 0 /\
  402 / 4 * 4 < 402.
Proof.
  assert (Hn : 0 <= 402 < 2 ^ 32) by (split; [discriminate | reflexivity]).
  assert (He : 0 < 4) by reflexivity.
  assert (Hm : 402 mod 4 <> 0) by (intros H; discriminate H).
  split; [exact Hn|]. split; [exact He|]. split; [exact Hm|].
  exact (proj2 (proj2 (proj2 (installed_stack_size_rounds_down
                                16000000 32 402 4 entry_looping embedded_kernel
                                3 sample_argv Hn He)))
           Hm).
Defined.

(** ** A kernel that refuses an undersized stack *)

(** C7: with [OS_INTEGER_RTOS_MAIN_STACK_SIZE_BYTES] set to 0, on every
    kernel whose thread creation is the one the specification describes,
    the run of [main] ends in the fatal configuration error reported by
    the creation and no thread exists; [main] has stored the size 0
    without checking it, has attempted the creation once, and performs
    nothing after the refusal. *)
Theorem zero_stack_size_is_fatal
  (clock bits sizeof_element : Z)
  (user : main_func_t -> int -> char_pp -> behaviour)
  (returning : bool) (head : nat) (min_stack_bytes : Z) (control_blocks_free : nat)
  (argc : int) (argv : char_pp) :
  fst (run_main clock bits 0 sizeof_element user
         (mk_kernel returning head
            (spec_thread_accepts min_stack_bytes control_blocks_free))
         argc argv) = Halted Fatal /\
  s_main_thread
    (snd (run_main clock bits 0 sizeof_element user
            (mk_kernel returning head
               (spec_thread_accepts min_stack_bytes control_blocks_free))
            argc argv)) = None /\
  s_trace
    (snd (run_main clock bits 0 sizeof_element user
            (mk_kernel returning head
               (spec_thread_accepts min_stack_bytes control_blocks_free))
            argc argv)) =
    [ (Boot, trace_printf ("System clock: %u Hz" ++ newline) clock);
      (Boot, scheduler_initialize);
      (Boot, store_args_func os_main);
      (Boot, store_args_argc argc);
      (Boot, store_args_argv argv);
      (Boot, attr_construct "main");
      (Boot, store_attr_stack_address (addr_of obj_main_stack));
      (Boot, store_attr_stack_size_bytes 0);
      (Boot, thread_construct (addr_of obj_main_thread) (addr_of obj_attr)
               ptr_main_trampoline (addr_of obj_args)) ].
Proof.
  unfold run_main, main. rewrite sizeof_main_stack_zero.
  repeat split; reflexivity.
Qed.

(** ** The scenarios of the specification *)

(** [argc = 1], [argv = ["prog"]], the entry point returns 0: the
    process ends with status 0, on an embedded and on a hosted kernel. *)
Example scenario_status_0 :
  fst (run_main 16000000 32 400 4 (entry_returning 0) embedded_kernel
         1 (Some ["prog"%string])) = Halted (Exited 0) /\
  fst (run_main 16000000 32 400 4 (entry_returning 0) (hosted_kernel 1)
         1 (Some ["prog"%string])) = Halted (Exited 0).
Proof. split; reflexivity. Qed.

(** [argc = 3], [argv = ["prog"; "-x"; "42"]], the entry point returns
    7: the process ends with status 7. *)
Example scenario_status_7 :
  fst (run_main 16000000 32 400 4 (entry_returning 7) embedded_kernel
         3 sample_argv) = Halted (Exited 7) /\
  fst (run_main 16000000 32 400 4 (entry_returning 7) (hosted_kernel 9)
         3 sample_argv) = Halted (Exited 7).
Proof. split; reflexivity. Qed.

(** The scheduler never returns and the entry point runs forever: the
    run goes on forever, and the boot context performs nothing after the
    start. *)
Example scenario_start_never_returns :
  fst (run_main 16000000 32 400 4 entry_looping embedded_kernel 3 sample_argv)
  = Halted Forever /\
  filter in_boot
    (after is_scheduler_start
       (s_trace (snd (run_main 16000000 32 400 4 entry_looping embedded_kernel
                        3 sample_argv)))) = [].
Proof. split; reflexivity. Qed.

(** ** Further properties of the trampoline *)

Section TrampolineAlone.

Variable user : main_func_t -> int -> char_pp -> behaviour.

(** X1: whatever pointer it is given and whatever the statics hold, the
    trampoline never returns to the kernel that called it: its run ends
    in the exit of the process, inside the call, or in undefined
    behaviour.  Given the capsule, the run is undefined exactly when the
    captured [func] is null, as it is before [main] has stored into the
    capsule. *)
Theorem trampoline_never_returns (p : pointer) (st : state) :
  (forall x, fst (run_trampoline user p st) <> Returned x) /\
  (forall rest, fst (run_trampoline user p st) <> Paused rest) /\
  (p = addr_of obj_args ->
   (fst (run_trampoline user p st) = Halted Undefined <->
    func (s_args st) = null_main_func)).
Proof.
  destruct st as [[f c a] at_ th si ss tr].
  unfold run_trampoline, _main_trampoline.
  destruct p as [|[]]; cbn;
    try (repeat split; try discriminate; intros; discriminate).
  destruct f; cbn; try destruct (user _ c a); cbn;
    (split; [intros x; discriminate|]);
    (split; [intros rest; discriminate|]);
    intros _; split; intros H; try discriminate H; reflexivity.
Qed.

End TrampolineAlone.

Lemma trampoline_never_returns_witness :
  func (s_args initial_state) = null_main_func /\
  fst (run_trampoline entry_looping (addr_of obj_args) initial_state)
  = Halted Undefined.
Proof.
  split; [reflexivity|].
  apply (proj2 (proj2 (trampoline_never_returns entry_looping
                         (addr_of obj_args) initial_state)) eq_refl).
  reflexivity.
Defined.

(** ** Further properties of the bootstrap *)

Section BootstrapRuns.

Variable SystemCoreClock : Z.
Variable size_t_bits : Z.
Variable OS_INTEGER_RTOS_MAIN_STACK_SIZE_BYTES : Z.
Variable sizeof_element_t : Z.
Variable user : main_func_t -> int -> char_pp -> behaviour.
Variable K : kernel.

Local Abbreviation installed :=
  (sizeof_main_stack size_t_bits OS_INTEGER_RTOS_MAIN_STACK_SIZE_BYTES
     sizeof_element_t).
Local Abbreviation boot :=
  (run_main SystemCoreClock size_t_bits OS_INTEGER_RTOS_MAIN_STACK_SIZE_BYTES
     sizeof_element_t user K).

(** X4: on every kernel and for every entry point, what the boot context
    performs is a beginning of the statements of [main] as lines 74-109
    list them: the [printf], the initialisation of the scheduler, the
    three stores into the capsule, the construction of the attributes and
    the two stores into them, the creation of the thread, the start of
    the scheduler and the join.  Nothing is skipped, repeated or
    reordered, and the boot context performs nothing else: it never
    calls the entry point or [std::exit] itself.  Every run gets as far
    as the creation of the thread, and a run in which [main] returns has
    performed them all. *)
Theorem boot_follows_program_order (argc : int) (argv : char_pp) :
  exists rest : list op,
    [ trace_printf ("System clock: %u Hz" ++ newline) SystemCoreClock;
      scheduler_initialize;
      store_args_func os_main;
      store_args_argc argc;
      store_args_argv argv;
      attr_construct "main";
      store_attr_stack_address (addr_of obj_main_stack);
      store_attr_stack_size_bytes installed;
      thread_construct (addr_of obj_main_thread) (addr_of obj_attr)
        ptr_main_trampoline (addr_of obj_args);
      scheduler_start;
      thread_join (addr_of obj_main_thread) ] =
      map snd (filter in_boot (s_trace (snd (boot argc argv)))) ++ rest /\
    (List.length rest <= 2)%nat /\
    (forall x, fst (boot argc argv) = Returned x -> rest = []).
Proof.
  run_main_cases K user argc argv;
    (eexists; split; [reflexivity|]);
    (split; [cbn; lia|]);
    intros x Hx; try discriminate Hx; reflexivity.
Qed.

(** X5: [SystemCoreClock] is only printed: with another value of it the
    run ends the same way, with the same capsule, attributes and thread,
    and the same operations after the first, which is the [printf] of
    the value. *)
Theorem clock_is_only_traced (clock' : Z) (argc : int) (argv : char_pp) :
  fst (boot argc argv) =
    fst (run_main clock' size_t_bits OS_INTEGER_RTOS_MAIN_STACK_SIZE_BYTES
           sizeof_element_t user K argc argv) /\
  s_args (snd (boot argc argv)) =
    s_args (snd (run_main clock' size_t_bits OS_INTEGER_RTOS_MAIN_STACK_SIZE_BYTES
                   sizeof_element_t user K argc argv)) /\
  s_attr (snd (boot argc argv)) =
    s_attr (snd (run_main clock' size_t_bits OS_INTEGER_RTOS_MAIN_STACK_SIZE_BYTES
                   sizeof_element_t user K argc argv)) /\
  s_main_thread (snd (boot argc argv)) =
    s_main_thread (snd (run_main clock' size_t_bits OS_INTEGER_RTOS_MAIN_STACK_SIZE_BYTES
                          sizeof_element_t user K argc argv)) /\
  tl (s_trace (snd (boot argc argv))) =
    tl (s_trace (snd (run_main clock' size_t_bits OS_INTEGER_RTOS_MAIN_STACK_SIZE_BYTES
                        sizeof_element_t user K argc argv))) /\
  hd_error (s_trace (snd (boot argc argv))) =
    Some (Boot, trace_printf ("System clock: %u Hz" ++ newline) SystemCoreClock).
Proof.
  run_main_cases K user argc argv; repeat split; reflexivity.
Qed.

(** X6: a configured size that is less than the size of one stack
    element gives an array of no element: [main] installs a stack of 0
    bytes without noticing, the thread, when the kernel creates it, has
    a stack of 0 bytes, and whether the run is fatal is left to the
    kernel alone. *)
Theorem undersized_configuration_installs_empty_stack (argc : int) (argv : char_pp) :
  0 <= OS_INTEGER_RTOS_MAIN_STACK_SIZE_BYTES < sizeof_element_t ->
  OS_INTEGER_RTOS_MAIN_STACK_SIZE_BYTES < 2 ^ size_t_bits ->
  s_attr (snd (boot argc argv)) = Some (main_attributes 0) /\
  (forall t, s_main_thread (snd (boot argc argv)) = Some t ->
     th_stack_size_bytes (thr_attr t) = 0) /\
  (fst (boot argc argv) = Halted Fatal <->
     thread_accepts K (main_attributes 0) = false).
Proof.
  intros HN Hbits.
  assert (Hz : installed = 0).
  { rewrite sizeof_main_stack_in_range by lia.
    rewrite Z.div_small by lia. reflexivity. }
  revert Hz. clear HN Hbits.
  run_main_cases K user argc argv; intros Hz; rewrite Hz in *; clear Hz;
    (split; [reflexivity|]);
    (split; [intros t Ht; try discriminate Ht; injection Ht as <-; reflexivity|]);
    split; intros Hf; try discriminate Hf; try congruence; reflexivity.
Qed.

End BootstrapRuns.

Lemma boot_follows_program_order_witness :
  fst (run_main 16000000 32 400 4 entry_leaving_thread (hosted_kernel 1)
         3 sample_argv) = Returned 0 /\
  map snd
    (filter in_boot
       (s_trace (snd (run_main 16000000 32 400 4 entry_leaving_thread
                        (hosted_kernel 1) 3 sample_argv)))) =
    [ trace_printf ("System clock: %u Hz" ++ newline) 16000000;
      scheduler_initialize;
      store_args_func os_main;
      store_args_argc 3;
      store_args_argv sample_argv;
      attr_construct "main";
      store_attr_stack_address (addr_of obj_main_stack);
      store_attr_stack_size_bytes 400;
      thread_construct (addr_of obj_main_thread) (addr_of obj_attr)
        ptr_main_trampoline (addr_of obj_args);
      scheduler_start;
      thread_join (addr_of obj_main_thread) ].
Proof.
  split; [reflexivity|].
  destruct (boot_follows_program_order 16000000 32 400 4 entry_leaving_thread
              (hosted_kernel 1) 3 sample_argv) as [rest [Horder [_ Hrest]]].
  rewrite (Hrest 0 eq_refl), app_nil_r in Horder.
  symmetry. exact Horder.
Defined.

Lemma undersized_configuration_installs_empty_stack_witness :
  0 <= 3 < 4 /\ 3 < 2 ^ 32 /\
  s_attr (snd (run_main 16000000 32 3 4 entry_looping embedded_kernel
                 3 sample_argv)) = Some (main_attributes 0).
Proof.
  assert (Hn : 0 <= 3 < 4) by (split; [discriminate | reflexivity]).
  assert (Hb : 3 < 2 ^ 32) by reflexivity.
  split; [exact Hn|]. split; [exact Hb|].
  exact (proj1 (undersized_configuration_installs_empty_stack
                  16000000 32 3 4 entry_looping embedded_kernel
                  3 sample_argv Hn Hb)).
Defined.

(** ** The interleaving *)

(** On a kernel whose [start] returns, a run with any head start of the
    thread agrees with the run without head start. *)
Lemma hosted_run_does_not_depend_on_head_start
  (clock bits n e : Z) (user : main_func_t -> int -> char_pp -> behaviour)
  (acc : Attributes -> bool) (h : nat) (argc : int) (argv : char_pp) :
  let r := run_main clock bits n e user (mk_kernel true h acc) argc argv in
  let r0 := run_main clock bits n e user (mk_kernel true 0 acc) argc argv in
  fst r = fst r0 /\
  s_args (snd r) = s_args (snd r0) /\
  s_attr (snd r) = s_attr (snd r0) /\
  main_thread_terminated (snd r) = main_thread_terminated (snd r0) /\
  filter in_main_thread (s_trace (snd r)) = filter in_main_thread (s_trace (snd r0)).
Proof.
  unfold run_main, main. cbv zeta.
  generalize (sizeof_main_stack bits n e). intros sz.
  destruct (acc (main_attributes sz)) eqn:Hacc;
    destruct (user os_main argc argv) eqn:Hu;
    destruct h as [|[|[|[|[|h]]]]];
    evaluate Hacc Hu; repeat split; reflexivity.
Qed.

(** X7: on a kernel whose [start] returns, how far the main thread gets
    before [main] reaches the join makes no difference: two runs that
    differ only in the head start of the thread end the same way, with
    the same capsule and attributes, the thread terminated in both or in
    neither, and the same operations performed by the thread. *)
Theorem hosted_result_independent_of_head_start
  (clock bits n e : Z) (user : main_func_t -> int -> char_pp -> behaviour)
  (acc : Attributes -> bool) (h1 h2 : nat) (argc : int) (argv : char_pp) :
  fst (run_main clock bits n e user (mk_kernel true h1 acc) argc argv) =
    fst (run_main clock bits n e user (mk_kernel true h2 acc) argc argv) /\
  s_args (snd (run_main clock bits n e user (mk_kernel true h1 acc) argc argv)) =
    s_args (snd (run_main clock bits n e user (mk_kernel true h2 acc) argc argv)) /\
  s_attr (snd (run_main clock bits n e user (mk_kernel true h1 acc) argc argv)) =
    s_attr (snd (run_main clock bits n e user (mk_kernel true h2 acc) argc argv)) /\
  main_thread_terminated
    (snd (run_main clock bits n e user (mk_kernel true h1 acc) argc argv)) =
    main_thread_terminated
      (snd (run_main clock bits n e user (mk_kernel true h2 acc) argc argv)) /\
  filter in_main_thread
    (s_trace (snd (run_main clock bits n e user (mk_kernel true h1 acc) argc argv))) =
    filter in_main_thread
      (s_trace (snd (run_main clock bits n e user (mk_kernel true h2 acc) argc argv))).
Proof.
  destruct (hosted_run_does_not_depend_on_head_start
              clock bits n e user acc h1 argc argv) as (A1 & B1 & C1 & D1 & E1).
  destruct (hosted_run_does_not_depend_on_head_start
              clock bits n e user acc h2 argc argv) as (A2 & B2 & C2 & D2 & E2).
  repeat split; congruence.
Qed.
